(** * OpenFan Z-Image Turbo serverless handler: a shallow embedding

    The development follows [docker/handler.py].  Python values are a small
    dynamically typed universe (the JSON values a request can carry), the
    module-level global [MODEL], the standard output and the position in the
    random stream form an explicit state, and exceptions are an outcome of
    every computation.  The Pillow imaging library, [base64], [repr] and the
    random source are outside the repository and are taken as an interface. *)

From Stdlib Require Import ZArith Floats.
From stdpp Require Import gmap strings list list_numbers pretty.

#[local] Set Warnings "-register-all".
#[local] Open Scope string_scope.
#[local] Open Scope list_scope.
#[local] Open Scope Z_scope.

(** ** Python values *)

(** The JSON-compatible values a request mapping can hold.  An [int] is
    unbounded, a [float] is an IEEE 754 binary64 number. *)
Inductive value : Type :=
| VNone
| VBool (b : bool)
| VInt (n : Z)
| VFloat (f : float)
| VStr (s : string)
| VList (l : list value)
| VDict (d : gmap string value).

(** The exceptions the handler can let escape. *)
Inductive exn : Type :=
| AttributeError
| TypeError
| OverflowError
| LibraryError (name : string).

Inductive outcome (A : Type) : Type :=
| Returned (a : A)
| Raised (e : exn).
Arguments Returned {A} a.
Arguments Raised {A} e.

(** Python truth value testing, as used by [if not prompt] and by the
    conditional expression on [char_block]. *)
Definition truthy (v : value) : bool :=
  match v with
  | VNone => false
  | VBool b => b
  | VInt n => negb (n =? 0)
  | VFloat f => negb (PrimFloat.eqb f 0%float)
  | VStr s => negb (bool_decide (s = ""))
  | VList l => negb (bool_decide (length l = 0%nat))
  | VDict d => negb (bool_decide (size d = 0%nat))
  end.

(** [bool] is a subclass of [int]: [True] counts as 1 and [False] as 0. *)
Definition as_int (v : value) : option Z :=
  match v with
  | VInt n => Some n
  | VBool b => Some (Z.b2z b)
  | _ => None
  end.

(** The numbers: [int], [bool] and [float]. *)
Definition is_number (v : value) : bool :=
  match v with
  | VInt _ | VBool _ | VFloat _ => true
  | _ => false
  end.

(** [a < f] for an [int] [a] and a [float] [f].  Python compares the two
    exactly, without rounding [a]: nothing is below NaN, and a finite [f]
    is its mantissa times a power of two. *)
Definition Z_lt_float (a : Z) (f : float) : bool :=
  match Prim2SF f with
  | S754_nan => false
  | S754_infinity s => negb s
  | S754_zero _ => a <? 0
  | S754_finite s m e =>
      let v := if s then Z.neg m else Z.pos m in
      if 0 <=? e then a <? v * 2 ^ e else a * 2 ^ (- e) <? v
  end.

(** The [float] an [int] converts to in mixed arithmetic: the nearest one,
    ties to even; an [int] beyond the range of [float] has none
    ([OverflowError]). *)
Definition Z_to_float (i : Z) : option float :=
  match binary_normalize prec emax i 0 false with
  | S754_infinity _ => None
  | sf => Some (SF2Prim sf)
  end.

(** [a < x] for an [int] literal [a]: defined on numbers only. *)
Definition py_lt_int (a : Z) (x : value) : outcome bool :=
  match x with
  | VFloat f => Returned (Z_lt_float a f)
  | _ =>
      match as_int x with
      | Some n => Returned (a <? n)
      | None => Raised TypeError
      end
  end.

(** [min(x, a)] for an [int] literal [a]: the builtin keeps its first argument
    unless a later one compares strictly smaller. *)
Definition py_min (x : value) (a : Z) : outcome value :=
  match py_lt_int a x with
  | Returned lt => Returned (if lt then VInt a else x)
  | Raised e => Raised e
  end.

(** [x + i] for an [int] [i]: exact on [int] and [bool], and the [float]
    sum with the converted [i] on a [float]. *)
Definition py_add_int (x : value) (i : Z) : outcome value :=
  match x with
  | VFloat f =>
      match Z_to_float i with
      | Some g => Returned (VFloat (PrimFloat.add f g))
      | None => Raised OverflowError
      end
  | _ =>
      match as_int x with
      | Some n => Returned (VInt (n + i))
      | None => Raised TypeError
      end
  end.

(** [range(n)], as the list of the indices it yields; a [float] is no
    count. *)
Definition py_range (n : value) : outcome (list Z) :=
  match as_int n with
  | Some k => Returned (seqZ 0 k)
  | None => Raised TypeError
  end.

(** ** What lives outside the repository *)

Class Externals : Type := {
  (** a [PIL.Image.Image] *)
  Image : Type;
  (** builtin [repr] *)
  py_repr : value -> string;
  (** [Image.new(mode, (width, height), color=(r, g, b))] *)
  Image_new : string -> value -> value -> Z * Z * Z -> outcome Image;
  (** [img.save(buffer, format=..., quality=...)] followed by
      [buffer.getvalue()] *)
  Image_save : Image -> string -> Z -> outcome (list Byte.byte);
  (** [base64.b64encode(bytes).decode("utf-8")] *)
  b64encode : list Byte.byte -> string;
  (** the stream behind the module [random] *)
  random_stream : nat -> Z
}.

(** ** Process state *)

(** The arguments of one call of [generate_image]. *)
Record gen_call : Type := GenCall {
  call_prompt : value;
  call_negative_prompt : value;
  call_width : value;
  call_height : value;
  call_seed : value
}.

Record state : Type := State {
  MODEL : value;
  stdout : list string;
  rand_pos : nat;
  gen_calls : list gen_call
}.

(** Module import time: [MODEL = None], nothing printed, nothing drawn. *)
Definition initial_state : state :=
  {| MODEL := VNone; stdout := []; rand_pos := 0%nat; gen_calls := [] |}.

(** Computations over the process state that may raise. *)
Definition M (A : Type) : Type := state -> outcome A * state.

Definition ret {A} (a : A) : M A := fun st => (Returned a, st).

Definition raise {A} (e : exn) : M A := fun st => (Raised e, st).

Definition bind {A B} (c : M A) (k : A -> M B) : M B :=
  fun st =>
    match c st with
    | (Returned a, st') => k a st'
    | (Raised e, st') => (Raised e, st')
    end.

Definition lift {A} (o : outcome A) : M A := fun st => (o, st).

Notation "x <- c ;; k" := (bind c (fun x => k))
  (at level 100, c at next level, right associativity).
Notation "c ;;; k" := (bind c (fun _ => k))
  (at level 100, right associativity).

(** [d.get(key, dflt)]; only a mapping has the method. *)
Definition dict_get (d : value) (key : string) (dflt : value) : M value :=
  match d with
  | VDict m => ret (default dflt (m !! key))
  | _ => raise AttributeError
  end.

Definition print (line : string) : M unit :=
  fun st =>
    (Returned tt,
     {| MODEL := MODEL st; stdout := stdout st ++ [line];
        rand_pos := rand_pos st; gen_calls := gen_calls st |}).

Definition set_MODEL (v : value) : M unit :=
  fun st =>
    (Returned tt,
     {| MODEL := v; stdout := stdout st;
        rand_pos := rand_pos st; gen_calls := gen_calls st |}).

Definition get_MODEL : M value := fun st => (Returned (MODEL st), st).

(** Ghost instrumentation: remember the arguments of a generation call. *)
Definition record_call (c : gen_call) : M unit :=
  fun st =>
    (Returned tt,
     {| MODEL := MODEL st; stdout := stdout st;
        rand_pos := rand_pos st; gen_calls := gen_calls st ++ [c] |}).

(** [str.format] of a value with an empty format spec, as an f-string
    replacement field does: a string is itself, any other builtin value
    falls back to its [repr]. *)
Definition format_value `{Externals} (v : value) : string :=
  match v with
  | VStr s => s
  | _ => py_repr v
  end.

(** [random.randint(a, b)]: the next draw, brought into [a..b]. *)
Definition randint `{Externals} (a b : Z) : M Z :=
  fun st =>
    (Returned (a + random_stream (rand_pos st) `mod` (b - a + 1)),
     {| MODEL := MODEL st; stdout := stdout st;
        rand_pos := S (rand_pos st); gen_calls := gen_calls st |}).

(** ** The handler module *)

Section handler_module.
Context `{Externals}.

(** [load_model], lines 34-45. *)
Definition load_model : M unit :=
  print "Model loaded (placeholder)" ;;;
  set_MODEL (VStr "loaded").

(** [generate_image], lines 48-67. *)
Definition generate_image
    (_prompt _negative_prompt width height seed : value) : M Image :=
  record_call (GenCall _prompt _negative_prompt width height seed) ;;;
  _seed <- match seed with
           | VNone => r <- randint 0 (2 ^ 32 - 1) ;; ret (VInt r)
           | _ => ret seed
           end ;;
  r <- randint 0 255 ;;
  g <- randint 0 255 ;;
  b <- randint 0 255 ;;
  lift (Image_new "RGB" width height (r, g, b)).

(** [image_to_base64], lines 70-74. *)
Definition image_to_base64 (img : Image) : M string :=
  buffer <- lift (Image_save img "JPEG" 95) ;;
  ret (b64encode buffer).

(** The local variables bound by lines 81-87 of [handler]. *)
Record locals : Type := Locals {
  prompt : value;
  negative_prompt : value;
  char_block : value;
  width : value;
  height : value;
  seed : value;
  num_images : value
}.

(** Lines 81-87: read the fields of [input_data] with their defaults. *)
Definition read_input (input_data : value) : M locals :=
  prompt <- dict_get input_data "prompt" (VStr "") ;;
  negative_prompt <- dict_get input_data "negative_prompt" (VStr "") ;;
  char_block <- dict_get input_data "char_block" (VStr "") ;;
  width <- dict_get input_data "width" (VInt 1024) ;;
  height <- dict_get input_data "height" (VInt 1024) ;;
  seed <- dict_get input_data "seed" VNone ;;
  n <- dict_get input_data "num_images" (VInt 1) ;;
  num_images <- lift (py_min n 4) ;;
  ret (Locals prompt negative_prompt char_block width height seed num_images).

(** Line 93. *)
Definition full_prompt_of (char_block prompt : value) : value :=
  if truthy char_block
  then VStr (format_value char_block +:+ ", " +:+ format_value prompt)
  else prompt.

(** Line 102: the seed of image [i]. *)
Definition img_seed_for (seed : value) (i : Z) : outcome value :=
  match seed with
  | VNone => Returned VNone
  | _ => py_add_int seed i
  end.

(** Lines 101-104: the body of the [for] loop, over the indices still to
    come, with the list [images] built so far. *)
Fixpoint generate_all (full_prompt negative_prompt width height seed : value)
    (indices : list Z) (images : list string) : M (list string) :=
  match indices with
  | [] => ret images
  | i :: rest =>
      img_seed <- lift (img_seed_for seed i) ;;
      img <- generate_image full_prompt negative_prompt width height img_seed ;;
      encoded <- image_to_base64 img ;;
      generate_all full_prompt negative_prompt width height seed
        rest (images ++ [encoded])
  end.

Definition error_response : gmap string value :=
  {[ "error" := VStr "prompt is required" ]}.

Definition images_response (images : list string) : gmap string value :=
  {[ "images" := VList (VStr <$> images) ]}.

(** Lines 89-106: everything after the fields are read. *)
Definition respond (l : locals) : M (gmap string value) :=
  if negb (truthy (prompt l)) then ret error_response
  else
    let full_prompt := full_prompt_of (char_block l) (prompt l) in
    m <- get_MODEL ;;
    match m with VNone => load_model | _ => ret tt end ;;;
    indices <- lift (py_range (num_images l)) ;;
    images <- generate_all full_prompt (negative_prompt l) (width l)
                (height l) (seed l) indices [] ;;
    ret (images_response images).

(** Line 79: [event.get("input", {})]. *)
Definition event_input (event : gmap string value) : value :=
  default (VDict ∅) (event !! "input").

(** [handler], lines 77-106. *)
Definition handler (event : gmap string value) : M (gmap string value) :=
  let input_data := event_input event in
  l <- read_input input_data ;;
  respond l.

(** The worker started on line 110 hands the requests to [handler] one
    after the other, in one process; an exception ends a request, not the
    process state. *)
Fixpoint serve (events : list (gmap string value)) (st : state)
    : list (outcome (gmap string value)) * state :=
  match events with
  | [] => ([], st)
  | event :: rest =>
      let '(o, st1) := handler event st in
      let '(os, st2) := serve rest st1 in
      (o :: os, st2)
  end.

End handler_module.

(** ** A stand-in for the external libraries

    Enough of Pillow to run the handler: an image is its size and colour,
    a size must be two non-negative integers, and the encoder writes one
    byte per colour channel. *)

Definition reference_repr (v : value) : string :=
  match v with
  | VNone => "None"
  | VBool true => "True"
  | VBool false => "False"
  | VInt n => pretty n
  | VFloat _ => "0.0"
  | VStr s => "'" +:+ s +:+ "'"
  | VList _ => "[...]"
  | VDict _ => "{...}"
  end.

Definition reference_Image_new (mode : string) (w h : value) (c : Z * Z * Z)
    : outcome (Z * Z * (Z * Z * Z)) :=
  match w, h with
  | VInt a, VInt b =>
      if (0 <=? a) && (0 <=? b) then Returned (a, b, c)
      else Raised (LibraryError "ValueError")
  | _, _ => Raised TypeError
  end.

Definition reference_Image_save (img : Z * Z * (Z * Z * Z)) (format : string)
    (quality : Z) : outcome (list Byte.byte) :=
  let '(w, h, _) := img in
  if (0 <? w) && (0 <? h) then Returned [Byte.xff; Byte.xd8; Byte.xff; Byte.xd9]
  else Raised (LibraryError "SystemError").

Definition reference_externals : Externals := {|
  Image := Z * Z * (Z * Z * Z);
  py_repr := reference_repr;
  Image_new := reference_Image_new;
  Image_save := reference_Image_save;
  b64encode := fun _ => "/9j/2Q==";
  random_stream := fun k => 7919 * Z.of_nat k + 17
|}.

(** Requests to run the handler on. *)

(** The end-to-end scenario of the documentation: a 64x64 batch of two. *)
Definition sample_input : gmap string value :=
  <[ "prompt" := VStr "cat" ]>
  (<[ "width" := VInt 64 ]>
  (<[ "height" := VInt 64 ]>
  (<[ "num_images" := VInt 2 ]>
  (<[ "seed" := VInt 7 ]> ∅)))).

Definition sample_event : gmap string value :=
  {[ "input" := VDict sample_input ]}.

(** Three images from seed 7, with a character block and a negative prompt. *)
Definition triple_input : gmap string value :=
  <[ "prompt" := VStr "B" ]>
  (<[ "char_block" := VStr "A" ]>
  (<[ "negative_prompt" := VStr "blurry" ]>
  (<[ "num_images" := VInt 3 ]>
  (<[ "seed" := VInt 7 ]> ∅)))).

Definition triple_event : gmap string value :=
  {[ "input" := VDict triple_input ]}.

(** No prompt, and [null] for the image count. *)
Definition null_count_input : gmap string value :=
  {[ "num_images" := VNone ]}.

Definition null_count_event : gmap string value :=
  {[ "input" := VDict null_count_input ]}.

(** The prompt [0] and a string for the image count. *)
Definition text_count_input : gmap string value :=
  <[ "prompt" := VInt 0 ]> {[ "num_images" := VStr "4" ]}.

Definition text_count_event : gmap string value :=
  {[ "input" := VDict text_count_input ]}.

(** A prompt and the image count [-1]. *)
Definition negative_count_input : gmap string value :=
  <[ "prompt" := VStr "cat" ]> {[ "num_images" := VInt (-1) ]}.

Definition negative_count_event : gmap string value :=
  {[ "input" := VDict negative_count_input ]}.

(** A prompt and the image count [0]. *)
Definition zero_count_input : gmap string value :=
  <[ "prompt" := VStr "cat" ]> {[ "num_images" := VInt 0 ]}.

Definition zero_count_event : gmap string value :=
  {[ "input" := VDict zero_count_input ]}.

(** The prompt [None]. *)
Definition null_prompt_input : gmap string value :=
  {[ "prompt" := VNone ]}.

Definition null_prompt_event : gmap string value :=
  {[ "input" := VDict null_prompt_input ]}.

(** A prompt and the image count [0.0]. *)
Definition float_count_input : gmap string value :=
  <[ "prompt" := VStr "cat" ]> {[ "num_images" := VFloat 0%float ]}.

Definition float_count_event : gmap string value :=
  {[ "input" := VDict float_count_input ]}.

(** [null] in place of the input mapping. *)
Definition null_input_event : gmap string value :=
  {[ "input" := VNone ]}.

(** A prompt and a text seed. *)
Definition text_seed_input : gmap string value :=
  <[ "prompt" := VStr "cat" ]> {[ "seed" := VStr "abc" ]}.

Definition text_seed_event : gmap string value :=
  {[ "input" := VDict text_seed_input ]}.



(** A prompt, no seed, [null] for the height, and more images than the cap. *)
Definition many_input : gmap string value :=
  <[ "prompt" := VStr "cat" ]>
  (<[ "height" := VNone ]> {[ "num_images" := VInt 100 ]}).

Definition many_event : gmap string value :=
  {[ "input" := VDict many_input ]}.

(** ** Vocabulary of the statements *)

(** The value a field of the input mapping is read as. *)
Definition field (d : gmap string value) (key : string) (dflt : value) : value :=
  default dflt (d !! key).

(** The seed of image [i] when line 102 does not raise. *)
Definition seed_at (seed : value) (i : Z) : value :=
  match img_seed_for seed i with
  | Returned v => v
  | Raised _ => VNone
  end.

(** A seed from which every per-image seed can be derived: none at all, or
    a number. *)
Definition seed_usable (seed : value) : Prop :=
  seed = VNone \/ is_number seed = true.

(** A colour line 66 can draw: three components in 0..255. *)
Definition colour_in_range (c : Z * Z * Z) : Prop :=
  let '(r, g, b) := c in
  (0 <= r <= 255) /\ (0 <= g <= 255) /\ (0 <= b <= 255).

(** Pillow creates an image of this size in any colour line 66 can draw,
    and encodes it. *)
Definition pillow_accepts `{Externals} (width height : value) : Prop :=
  forall c, colour_in_range c ->
    exists img bytes,
      Image_new "RGB" width height c = Returned img /\
      Image_save img "JPEG" 95 = Returned bytes.

(** The request gets past the prompt check of line 89. *)
Definition reaches_generation `{Externals} (event : gmap string value) : bool :=
  match fst (read_input (event_input event) initial_state) with
  | Returned l => truthy (prompt l)
  | Raised _ => false
  end.

(** The state lines 96-97 leave behind. *)
Definition after_load (st : state) : state :=
  match MODEL st with
  | VNone =>
      State (VStr "loaded") (stdout st ++ ["Model loaded (placeholder)"])
        (rand_pos st) (gen_calls st)
  | _ => st
  end.

(** The call of [generate_image] that iteration [i] makes for the input
    mapping [d]. *)
Definition expected_call `{Externals} (d : gmap string value) (i : Z) : gen_call :=
  GenCall
    (full_prompt_of (field d "char_block" (VStr "")) (field d "prompt" (VStr "")))
    (field d "negative_prompt" (VStr ""))
    (field d "width" (VInt 1024))
    (field d "height" (VInt 1024))
    (seed_at (field d "seed" VNone) i).

(** The lines [load_model] has printed. *)
Definition load_count (st : state) : nat :=
  length (filter (fun line => line = "Model loaded (placeholder)") (stdout st)).

(** The [k]-th draw of the random stream, as [random.randint(a, b)] sees it. *)
Definition draw `{Externals} (a b : Z) (k : nat) : Z :=
  a + random_stream k `mod` (b - a + 1).

(** The colour line 66 draws when the stream is at position [k]. *)
Definition colour_at `{Externals} (k : nat) : Z * Z * Z :=
  (draw 0 255 k, draw 0 255 (k + 1), draw 0 255 (k + 2)).

(** The draws line 51 makes for a seed: one when there is none. *)
Definition seed_draws (seed : value) : nat :=
  match seed with
  | VNone => 1
  | _ => 0
  end.

Section handler_facts.
Context `{Externals}.

(** *** The small steps *)

Lemma dict_get_dict d key dflt st :
  dict_get (VDict d) key dflt st = (Returned (field d key dflt), st).
Proof. reflexivity. Qed.

Lemma read_input_dict d st :
  read_input (VDict d) st =
    (match py_min (field d "num_images" (VInt 1)) 4 with
     | Returned m =>
         Returned (Locals (field d "prompt" (VStr ""))
                     (field d "negative_prompt" (VStr ""))
                     (field d "char_block" (VStr ""))
                     (field d "width" (VInt 1024))
                     (field d "height" (VInt 1024))
                     (field d "seed" VNone) m)
     | Raised e => Raised e
     end, st).
Proof.
  unfold read_input, bind, lift. rewrite !dict_get_dict.
  destruct (py_min _ 4); reflexivity.
Qed.

Lemma read_input_not_dict v st :
  (forall d, v <> VDict d) -> read_input v st = (Raised AttributeError, st).
Proof. intros Hv. destruct v; try reflexivity. now destruct (Hv d). Qed.

Lemma read_input_frame v st : snd (read_input v st) = st.
Proof.
  destruct v; try reflexivity.
  rewrite read_input_dict. reflexivity.
Qed.

Lemma py_min_number x n :
  as_int x = Some n -> exists m, py_min x 4 = Returned m /\ as_int m = Some (Z.min n 4).
Proof.
  intros Hx.
  assert (Hlt : py_lt_int 4 x = Returned (4 <? n))
    by (unfold py_lt_int; rewrite Hx; destruct x; try reflexivity; discriminate).
  unfold py_min. rewrite Hlt.
  destruct (4 <? n) eqn:Hcmp.
  - exists (VInt 4). split; [reflexivity|]. simpl. f_equal. lia.
  - exists x. split; [reflexivity|]. rewrite Hx. f_equal. lia.
Qed.

Lemma py_min_returns x :
  is_number x = true -> exists m, py_min x 4 = Returned m.
Proof.
  intros Hx. unfold py_min, py_lt_int.
  destruct x; try discriminate; simpl; eauto.
Qed.

Lemma py_min_not_number x :
  is_number x = false -> py_min x 4 = Raised TypeError.
Proof. intros Hx. destruct x; try discriminate; reflexivity. Qed.

(** What [min] returns is a count of at most 4 whenever [range] takes it. *)
Lemma py_min_range x m indices :
  py_min x 4 = Returned m ->
  py_range m = Returned indices ->
  exists c, as_int m = Some c /\ c <= 4 /\ indices = seqZ 0 c.
Proof.
  unfold py_min, py_lt_int, py_range. intros Hmin Hrange.
  destruct x as [|b|n|f|?|?|?]; simpl in Hmin; try discriminate.
  - destruct b; simpl in Hmin; injection Hmin as <-; simpl in Hrange;
      injection Hrange as <-; eexists; (split_and!; [reflexivity | simpl; lia | reflexivity]).
  - destruct (4 <? n) eqn:Hcmp; injection Hmin as <-; simpl in Hrange;
      injection Hrange as <-; eexists; (split_and!; [reflexivity | lia | reflexivity]).
  - destruct (Z_lt_float 4 f); injection Hmin as <-; simpl in Hrange;
      [|discriminate].
    injection Hrange as <-. exists 4. done.
Qed.

Lemma is_number_as_int x n : as_int x = Some n -> is_number x = true.
Proof. destruct x; simpl; congruence. Qed.

(** *** One image *)

Lemma generate_image_run a b w h s st :
  exists c pos,
    generate_image a b w h s st =
      (Image_new "RGB" w h c,
       State (MODEL st) (stdout st) pos (gen_calls st ++ [GenCall a b w h s])).
Proof.
  destruct s; do 2 eexists; unfold generate_image, bind, record_call,
    randint, ret, lift; simpl; reflexivity.
Qed.

Lemma image_to_base64_run img st :
  image_to_base64 img st =
    (match Image_save img "JPEG" 95 with
     | Returned buffer => Returned (b64encode buffer)
     | Raised e => Raised e
     end, st).
Proof.
  unfold image_to_base64, bind, lift, ret.
  destruct (Image_save img "JPEG" 95); reflexivity.
Qed.

Lemma generate_image_exact a b w h s st :
  generate_image a b w h s st =
    (Image_new "RGB" w h
       (draw 0 255 (rand_pos st + seed_draws s),
        draw 0 255 (rand_pos st + seed_draws s + 1),
        draw 0 255 (rand_pos st + seed_draws s + 2)),
     State (MODEL st) (stdout st) (rand_pos st + seed_draws s + 3)
       (gen_calls st ++ [GenCall a b w h s])).
Proof.
  unfold generate_image, bind, record_call, randint, ret, lift, draw.
  destruct s; simpl; rewrite ?Nat.add_0_r;
    repeat (f_equal; try lia).
Qed.

Lemma draw_in_range a b k : a <= b -> a <= draw a b k <= b.
Proof.
  intros Hab. unfold draw.
  pose proof (Z.mod_pos_bound (random_stream k) (b - a + 1)). lia.
Qed.

Lemma colour_at_in_range k : colour_in_range (colour_at k).
Proof.
  unfold colour_in_range, colour_at.
  split_and!; apply draw_in_range; lia.
Qed.

Lemma img_seed_for_seed_at sd i v :
  img_seed_for sd i = Returned v -> v = seed_at sd i.
Proof. unfold seed_at. now intros ->. Qed.

(** The indices of the loop, at most four, all convert to [float]. *)
Lemma Z_to_float_index i : 0 <= i < 4 -> is_Some (Z_to_float i).
Proof.
  intros Hi.
  assert (Hcases : i = 0 \/ i = 1 \/ i = 2 \/ i = 3) by lia.
  destruct Hcases as [Hc | [Hc | [Hc | Hc]]]; subst i;
    eexists; vm_compute; reflexivity.
Qed.

Lemma img_seed_for_usable sd i :
  seed_usable sd -> 0 <= i < 4 ->
  img_seed_for sd i = Returned (seed_at sd i).
Proof.
  intros Hsd Hi. unfold seed_at.
  destruct (img_seed_for sd i) as [v|e] eqn:Hseed; [reflexivity|].
  exfalso. destruct Hsd as [-> | Hnum]; [discriminate|].
  unfold img_seed_for, py_add_int in Hseed.
  destruct sd; try discriminate.
  destruct (Z_to_float_index i Hi) as [g Hg]. rewrite Hg in Hseed.
  discriminate.
Qed.

Lemma img_seed_for_draws sd i v :
  img_seed_for sd i = Returned v -> seed_draws v = seed_draws sd.
Proof.
  unfold img_seed_for, py_add_int.
  destruct sd; simpl; try congruence; try (intros [= <-]; reflexivity).
  destruct (Z_to_float i); [intros [= <-]; reflexivity | discriminate].
Qed.

(** *** The loop *)

Lemma generate_all_cons fp np w h sd i rest images st :
  generate_all fp np w h sd (i :: rest) images st =
    match img_seed_for sd i with
    | Raised e => (Raised e, st)
    | Returned v =>
        match generate_image fp np w h v st with
        | (Raised e, st1) => (Raised e, st1)
        | (Returned img, st1) =>
            match Image_save img "JPEG" 95 with
            | Raised e => (Raised e, st1)
            | Returned buffer =>
                generate_all fp np w h sd rest
                  (images ++ [b64encode buffer]) st1
            end
        end
    end.
Proof.
  simpl. unfold bind at 1. unfold lift at 1.
  destruct (img_seed_for sd i) as [v|e]; [|reflexivity].
  unfold bind at 1.
  destruct (generate_image fp np w h v st) as [[img|e] st1]; [|reflexivity].
  unfold bind at 1. rewrite image_to_base64_run.
  destruct (Image_save img "JPEG" 95); reflexivity.
Qed.

(** Whatever happens, the loop calls [generate_image] on a prefix of the
    indices, each time with the same prompts and size and with the seed of
    that index, and touches neither [MODEL] nor the output; when it
    returns, the prefix is the whole range and one string per index was
    appended. *)
Lemma generate_all_run fp np w h sd indices :
  forall images st,
  exists k,
    (k <= length indices)%nat /\
    gen_calls (snd (generate_all fp np w h sd indices images st)) =
      gen_calls st ++
        ((fun i => GenCall fp np w h (seed_at sd i)) <$> take k indices) /\
    MODEL (snd (generate_all fp np w h sd indices images st)) = MODEL st /\
    stdout (snd (generate_all fp np w h sd indices images st)) = stdout st /\
    (forall images',
       fst (generate_all fp np w h sd indices images st) = Returned images' ->
       k = length indices /\
       length images' = (length images + length indices)%nat).
Proof.
  induction indices as [|i rest IH]; intros images st.
  - exists 0%nat. simpl. rewrite app_nil_r. split_and!; try done.
    intros images' [= <-]. split; [done | lia].
  - rewrite generate_all_cons.
    destruct (img_seed_for sd i) as [v|e] eqn:Hseed.
    2:{ exists 0%nat. simpl. rewrite app_nil_r.
        split_and!; try done; lia. }
    apply img_seed_for_seed_at in Hseed as ->.
    destruct (generate_image_run fp np w h (seed_at sd i) st) as (c & pos & ->).
    destruct (Image_new "RGB" w h c) as [img|e].
    2:{ exists 1%nat. simpl. rewrite ?take_0. simpl.
        split_and!; try done; lia. }
    destruct (Image_save img "JPEG" 95) as [buffer|e].
    2:{ exists 1%nat. simpl. rewrite ?take_0. simpl.
        split_and!; try done; lia. }
    destruct (IH (images ++ [b64encode buffer])
                (State (MODEL st) (stdout st) pos
                   (gen_calls st ++ [GenCall fp np w h (seed_at sd i)])))
      as (k & Hk & Hcalls & Hmodel & Hout & Hret).
    exists (S k). simpl take. rewrite fmap_cons.
    rewrite Hcalls, Hmodel, Hout. simpl. rewrite <- app_assoc. simpl.
    split_and!; try done; try lia.
    intros images' Hi. destruct (Hret images' Hi) as [-> ->].
    rewrite length_app. simpl. split; lia.
Qed.

(** With a usable seed, indices below four and a size Pillow accepts the
    loop returns. *)
Lemma generate_all_returns fp np w h sd indices :
  seed_usable sd -> pillow_accepts w h ->
  Forall (fun i => 0 <= i < 4) indices ->
  forall images st,
  exists images', fst (generate_all fp np w h sd indices images st) = Returned images'.
Proof.
  intros Hsd Hpil.
  induction indices as [|i rest IH]; intros Hix images st.
  - exists images. reflexivity.
  - apply Forall_cons in Hix as [Hi Hrest].
    rewrite generate_all_cons, (img_seed_for_usable _ _ Hsd Hi).
    rewrite generate_image_exact.
    match goal with
    | |- context [Image_new "RGB" w h ?c] =>
        destruct (Hpil c) as (img & buffer & -> & ->);
          [apply (colour_at_in_range (rand_pos st + seed_draws (seed_at sd i)))|]
    end.
    apply (IH Hrest).
Qed.

(** *** The body of the handler *)

Lemma take_seqZ (k : nat) (m : Z) :
  take k (seqZ 0 m) = seqZ 0 (Z.min (Z.of_nat k) (Z.max 0 m)).
Proof.
  unfold seqZ. rewrite <- fmap_take, take_seq.
  do 2 f_equal. lia.
Qed.

Lemma load_step {A} (k : M A) st :
  (m <- get_MODEL ;;
   match m with VNone => load_model | _ => ret tt end ;;;
   k) st = k (after_load st).
Proof.
  unfold bind, get_MODEL, after_load, load_model, bind, print, set_MODEL, ret.
  destruct st as [model out pos calls]. simpl.
  destruct model; reflexivity.
Qed.

Lemma respond_no_prompt l st :
  truthy (prompt l) = false -> respond l st = (Returned error_response, st).
Proof. intros Hp. unfold respond. rewrite Hp. reflexivity. Qed.

Lemma respond_prompt l st :
  truthy (prompt l) = true ->
  respond l st =
    match py_range (num_images l) with
    | Raised e => (Raised e, after_load st)
    | Returned indices =>
        match generate_all (full_prompt_of (char_block l) (prompt l))
                (negative_prompt l) (width l) (height l) (seed l)
                indices [] (after_load st) with
        | (Returned images, st') => (Returned (images_response images), st')
        | (Raised e, st') => (Raised e, st')
        end
    end.
Proof.
  intros Hp. unfold respond. rewrite Hp. cbn [negb]. cbv zeta.
  rewrite load_step.
  unfold bind at 1, lift at 1.
  destruct (py_range (num_images l)) as [indices|e]; [|reflexivity].
  unfold bind at 1.
  destruct (generate_all _ _ _ _ _ indices [] (after_load st)) as [[images|e] st'];
    reflexivity.
Qed.

Lemma handler_dict event d st :
  event_input event = VDict d ->
  handler event st =
    match py_min (field d "num_images" (VInt 1)) 4 with
    | Returned m =>
        respond (Locals (field d "prompt" (VStr ""))
                   (field d "negative_prompt" (VStr ""))
                   (field d "char_block" (VStr ""))
                   (field d "width" (VInt 1024))
                   (field d "height" (VInt 1024))
                   (field d "seed" VNone) m) st
    | Raised e => (Raised e, st)
    end.
Proof.
  intros Hd. unfold handler. rewrite Hd. unfold bind.
  rewrite read_input_dict.
  destruct (py_min _ 4); reflexivity.
Qed.

Lemma handler_not_dict event st :
  (forall d, event_input event <> VDict d) ->
  handler event st = (Raised AttributeError, st).
Proof.
  intros Hv. unfold handler, bind. now rewrite read_input_not_dict.
Qed.

Lemma after_load_calls st : gen_calls (after_load st) = gen_calls st.
Proof. unfold after_load. destruct st as [[] ? ? ?]; reflexivity. Qed.

(** *** What one request does *)

Lemma reaches_generation_dict event d :
  event_input event = VDict d ->
  reaches_generation event =
    match py_min (field d "num_images" (VInt 1)) 4 with
    | Returned _ => truthy (field d "prompt" (VStr ""))
    | Raised _ => false
    end.
Proof.
  intros Hd. unfold reaches_generation. rewrite Hd, read_input_dict.
  destruct (py_min _ 4); reflexivity.
Qed.

Lemma reaches_generation_not_dict event :
  (forall d, event_input event <> VDict d) -> reaches_generation event = false.
Proof.
  intros Hv. unfold reaches_generation.
  now rewrite read_input_not_dict.
Qed.

(** The calls of [generate_image] a request makes are the expected ones for
    the first [k] indices, [k] at most 4; a returned response is the error
    response with no call made, or a list of exactly [k] images with [k]
    the clamped count. *)
Lemma handler_calls event d st :
  event_input event = VDict d ->
  exists k : nat,
    (k <= 4)%nat /\
    gen_calls (snd (handler event st)) =
      gen_calls st ++ (expected_call d <$> seqZ 0 (Z.of_nat k)) /\
    (forall resp,
       fst (handler event st) = Returned resp ->
       (truthy (field d "prompt" (VStr "")) = false /\
        resp = error_response /\ k = 0%nat) \/
       (truthy (field d "prompt" (VStr "")) = true /\
        exists m c images,
          py_min (field d "num_images" (VInt 1)) 4 = Returned m /\
          as_int m = Some c /\
          Z.of_nat k = Z.max 0 c /\
          resp = images_response images /\
          length images = k)).
Proof.
  intros Hd. rewrite (handler_dict _ _ _ Hd).
  destruct (py_min (field d "num_images" (VInt 1)) 4) as [m|e] eqn:Hmin.
  2:{ exists 0%nat. simpl. rewrite app_nil_r. split_and!; [lia | done | done]. }
  destruct (truthy (field d "prompt" (VStr ""))) eqn:Hp.
  2:{ rewrite respond_no_prompt by exact Hp. exists 0%nat. simpl.
      rewrite app_nil_r. split_and!; [lia | done |].
      intros resp [= <-]. left. done. }
  rewrite respond_prompt by exact Hp. simpl.
  destruct (py_range m) as [indices|e] eqn:Hrange.
  2:{ exists 0%nat. simpl. rewrite app_nil_r, after_load_calls.
      split_and!; [lia | done | done]. }
  destruct (py_min_range _ _ _ Hmin Hrange) as (c & Hc & Hle & ->).
  match goal with
  | |- context [generate_all ?fp ?np ?w ?h ?sd ?ix ?im ?s] =>
      destruct (generate_all_run fp np w h sd ix im s)
        as (k & Hk & Hcalls & _ & _ & Hret);
      destruct (generate_all fp np w h sd ix im s) as [[images|e] st']
  end; simpl in *.
  - destruct (Hret images eq_refl) as [-> Hlen].
    rewrite length_seqZ in *.
    exists (Z.to_nat c). split; [lia|]. split.
    + rewrite Hcalls, after_load_calls, take_seqZ. do 3 f_equal. lia.
    + intros resp [= <-]. right. split; [done|].
      exists m, c, images. split_and!; try done; lia.
  - rewrite length_seqZ in Hk.
    exists k. split; [lia|]. split; [|done].
    rewrite Hcalls, after_load_calls, take_seqZ. do 3 f_equal. lia.
Qed.

(** A request with a truthy prompt, an integer image count, a usable seed
    and a size Pillow accepts gets a response. *)
Lemma handler_returns event d n st :
  event_input event = VDict d ->
  truthy (field d "prompt" (VStr "")) = true ->
  as_int (field d "num_images" (VInt 1)) = Some n ->
  seed_usable (field d "seed" VNone) ->
  pillow_accepts (field d "width" (VInt 1024)) (field d "height" (VInt 1024)) ->
  exists resp, fst (handler event st) = Returned resp.
Proof.
  intros Hd Hp Hn Hsd Hpil. rewrite (handler_dict _ _ _ Hd).
  destruct (py_min_number _ _ Hn) as (m & -> & Hm).
  rewrite respond_prompt by exact Hp. simpl.
  unfold py_range. rewrite Hm.
  assert (Hix : Forall (fun i => 0 <= i < 4) (seqZ 0 (Z.min n 4)))
    by (apply Forall_seqZ; lia).
  match goal with
  | |- context [generate_all ?fp ?np ?w ?h ?sd ?ix ?im ?s] =>
      destruct (generate_all_returns fp np w h sd ix Hsd Hpil Hix im s)
        as (images & Hret);
      destruct (generate_all fp np w h sd ix im s) as [[images0|e] st']
  end; simpl in *; [eauto | discriminate].
Qed.

(** [MODEL] and the output after a request: those of [after_load] when the
    request got past the prompt check, untouched otherwise. *)
Lemma handler_model event st :
  MODEL (snd (handler event st)) =
    MODEL (if reaches_generation event then after_load st else st) /\
  stdout (snd (handler event st)) =
    stdout (if reaches_generation event then after_load st else st).
Proof.
  destruct (event_input event) as [| | | | | |d] eqn:Hin;
    try (rewrite handler_not_dict, reaches_generation_not_dict
           by (rewrite Hin; discriminate); done).
  rewrite (handler_dict _ _ _ Hin), (reaches_generation_dict _ _ Hin).
  destruct (py_min _ 4) as [m|e] eqn:Hmin; [|done].
  destruct (truthy (field d "prompt" (VStr ""))) eqn:Hp.
  2:{ rewrite respond_no_prompt by exact Hp. done. }
  rewrite respond_prompt by exact Hp. simpl.
  destruct (py_range m) as [indices|e]; [|done].
  match goal with
  | |- context [generate_all ?fp ?np ?w ?h ?sd ?ix ?im ?s] =>
      destruct (generate_all_run fp np w h sd ix im s)
        as (k & _ & _ & Hmodel & Hout & _);
      destruct (generate_all fp np w h sd ix im s) as [[images|e] st']
  end; simpl in *; done.
Qed.

(** A request that gets a response: the calls are the expected ones for the
    whole clamped range, and there is one image per call. *)
Lemma handler_valid event d n st :
  event_input event = VDict d ->
  truthy (field d "prompt" (VStr "")) = true ->
  as_int (field d "num_images" (VInt 1)) = Some n ->
  seed_usable (field d "seed" VNone) ->
  pillow_accepts (field d "width" (VInt 1024)) (field d "height" (VInt 1024)) ->
  exists images st',
    handler event st = (Returned (images_response images), st') /\
    Z.of_nat (length images) = Z.max 0 (Z.min n 4) /\
    gen_calls st' = gen_calls st ++ (expected_call d <$> seqZ 0 (Z.min n 4)).
Proof.
  intros Hd Hp Hn Hsd Hpil.
  destruct (handler_returns _ _ _ st Hd Hp Hn Hsd Hpil) as (resp & Hresp).
  destruct (handler_calls _ _ st Hd) as (k & _ & Hcalls & Hret).
  destruct (Hret resp Hresp)
    as [(Hp' & _) | (_ & m & c & images & Hmin & Hc & Hk & -> & Hlen)];
    [congruence|].
  destruct (py_min_number _ _ Hn) as (m' & Hmin' & Hm').
  assert (m' = m) as -> by congruence.
  assert (c = Z.min n 4) as -> by congruence.
  exists images, (snd (handler event st)). split_and!.
  - rewrite <- Hresp. apply surjective_pairing.
  - lia.
  - rewrite Hcalls, Hk. unfold seqZ.
    replace (Z.to_nat (Z.max 0 (Z.min n 4))) with (Z.to_nat (Z.min n 4)) by lia.
    reflexivity.
Qed.

Lemma images_response_not_error images : images_response images <> error_response.
Proof.
  intros Heq. apply (f_equal (fun m => m !! "error")) in Heq.
  unfold images_response, error_response in Heq.
  rewrite lookup_singleton_ne, lookup_singleton_eq in Heq by done.
  discriminate.
Qed.

(** ** The prompt check *)

(** C1 (as amended).  When the input sub-mapping is a mapping (or is missing
    and so read as the empty one), its [num_images] is absent or a number
    ([int], [bool] or [float]), and
    its [prompt] is absent or the empty string, [handler] returns exactly the
    mapping [{"error": "prompt is required"}]: the outcome is a returned
    value and not a raised exception, the mapping has no ["images"] key, and
    the process state is the one the call started in. *)
Theorem handler_prompt_required event d st :
  event_input event = VDict d ->
  d !! "prompt" = None \/ d !! "prompt" = Some (VStr "") ->
  is_number (field d "num_images" (VInt 1)) = true ->
  handler event st =
    (Returned ({[ "error" := VStr "prompt is required" ]} : gmap string value), st) /\
  ({[ "error" := VStr "prompt is required" ]} : gmap string value) !! "images" = None.
Proof.
  intros Hd Hp Hn. split; [|reflexivity].
  rewrite (handler_dict _ _ _ Hd).
  destruct (py_min_returns _ Hn) as (m & ->).
  apply respond_no_prompt. unfold field. simpl.
  destruct Hp as [-> | ->]; reflexivity.
Qed.

(** C10 (as amended).  The check of line 89 is Python truth value testing:
    when the input sub-mapping is a mapping whose [num_images] is absent or a
    number, a [prompt] that is present with any falsy value ([None], [0],
    [False], [0.0], the empty string, an empty list or mapping) gets the
    [{"error": "prompt is required"}] response, and a [prompt] with a truthy
    value never does. *)
Theorem handler_prompt_falsy event d v st :
  event_input event = VDict d ->
  d !! "prompt" = Some v ->
  is_number (field d "num_images" (VInt 1)) = true ->
  (truthy v = false -> handler event st = (Returned error_response, st)) /\
  (truthy v = true -> fst (handler event st) <> Returned error_response) /\
  Forall (fun falsy => truthy falsy = false)
    [VNone; VInt 0; VBool false; VFloat 0%float; VStr ""; VList []; VDict ∅].
Proof.
  intros Hd Hv Hn.
  assert (Hfield : field d "prompt" (VStr "") = v) by (unfold field; now rewrite Hv).
  split_and!.
  - intros Hfalse. rewrite (handler_dict _ _ _ Hd).
    destruct (py_min_returns _ Hn) as (m & ->).
    apply respond_no_prompt. simpl. now rewrite Hfield.
  - intros Htrue Hresp.
    destruct (handler_calls _ _ st Hd) as (k & _ & _ & Hret).
    destruct (Hret _ Hresp) as [(Hp & _) | (_ & m' & c' & images & _ & _ & _ & Himg & _)].
    + rewrite Hfield in Hp. congruence.
    + symmetry in Himg. now apply images_response_not_error in Himg.
  - repeat constructor.
Qed.

(** C7.  A request without an ["input"] key is handled as one whose input is
    the empty mapping: the fields are read as their defaults (prompt,
    negative_prompt and char_block the empty string, width and height 1024,
    no seed, one image), and the missing-prompt error is returned. *)
Theorem handler_missing_input event st :
  event !! "input" = None ->
  event_input event = VDict ∅ /\
  read_input (event_input event) st =
    (Returned (Locals (VStr "") (VStr "") (VStr "") (VInt 1024) (VInt 1024)
                 VNone (VInt 1)), st) /\
  handler event st = handler (<[ "input" := VDict ∅ ]> event) st /\
  handler event st = (Returned error_response, st).
Proof.
  intros Hin.
  assert (Hd : event_input event = VDict ∅)
    by (unfold event_input; now rewrite Hin).
  assert (Hd' : event_input (<[ "input" := VDict ∅ ]> event) = VDict ∅)
    by (unfold event_input; now rewrite lookup_insert_eq).
  split_and!.
  - exact Hd.
  - rewrite Hd, read_input_dict. reflexivity.
  - now rewrite (handler_dict _ _ _ Hd), (handler_dict _ _ _ Hd').
  - rewrite (handler_dict _ _ _ Hd). reflexivity.
Qed.

Lemma handler_empty_range event d n st :
  event_input event = VDict d ->
  truthy (field d "prompt" (VStr "")) = true ->
  as_int (field d "num_images" (VInt 1)) = Some n ->
  n <= 0 ->
  handler event st = (Returned (images_response []), after_load st).
Proof.
  intros Hd Hp Hn Hle. rewrite (handler_dict _ _ _ Hd).
  destruct (py_min_number _ _ Hn) as (m & -> & Hm).
  rewrite respond_prompt by exact Hp. simpl.
  unfold py_range. rewrite Hm, seqZ_nil by lia. reflexivity.
Qed.

(** C9 (as amended).  With a truthy prompt and a [num_images] that is an
    integer at most 0 (a [bool] counts as 0 or 1),
    [handler] returns [{"images": []}]: the clamp keeps the value, the loop
    body never runs (no call of [generate_image], no random draw), and the
    only effect is the model load of lines 96-97. *)
Theorem handler_nonpositive_count event d n st :
  event_input event = VDict d ->
  truthy (field d "prompt" (VStr "")) = true ->
  as_int (field d "num_images" (VInt 1)) = Some n ->
  n <= 0 ->
  handler event st =
    (Returned ({[ "images" := VList [] ]} : gmap string value), after_load st).
Proof.
  intros Hd Hp Hn Hle. exact (handler_empty_range _ _ _ _ Hd Hp Hn Hle).
Qed.

(** C6 (as amended).  A call that returns the error response leaves the
    whole process state as it was (no model load, no generation call, no
    random draw) and is a call that did not get past the prompt check; and
    [MODEL] changes during a call exactly when it was unset and the call got
    past the prompt check, whether the call then returns its images or
    raises: such a call is never an error-returning one. *)
Theorem handler_error_path_state event st :
  (fst (handler event st) = Returned error_response ->
   snd (handler event st) = st /\ reaches_generation event = false) /\
  (MODEL (snd (handler event st)) <> MODEL st ->
   MODEL st = VNone /\ MODEL (snd (handler event st)) = VStr "loaded" /\
   reaches_generation event = true /\
   fst (handler event st) <> Returned error_response) /\
  (MODEL st = VNone -> reaches_generation event = true ->
   MODEL (snd (handler event st)) <> MODEL st).
Proof.
  split; [|split].
  3:{ intros Hst Hreach.
      destruct (handler_model event st) as [Hmodel _].
      rewrite Hreach in Hmodel. unfold after_load in Hmodel.
      rewrite Hst in Hmodel. simpl in Hmodel. rewrite Hmodel, Hst.
      discriminate. }
  - intros Hresp.
    destruct (event_input event) as [| | | | | |d] eqn:Hin;
      try (rewrite handler_not_dict in Hresp
             by (rewrite Hin; discriminate); discriminate).
    destruct (handler_calls _ _ st Hin) as (k & _ & _ & Hret).
    destruct (Hret _ Hresp) as [(Hp & _) | (_ & m' & c' & images & _ & _ & _ & Himg & _)].
    2:{ symmetry in Himg. now apply images_response_not_error in Himg. }
    rewrite (reaches_generation_dict _ _ Hin), Hp.
    rewrite (handler_dict _ _ _ Hin) in Hresp |- *.
    destruct (py_min _ 4); [|discriminate].
    rewrite respond_no_prompt by exact Hp. done.
  - intros Hchange.
    destruct (handler_model event st) as [Hmodel _].
    destruct (reaches_generation event) eqn:Hreach; [|congruence].
    unfold after_load in Hmodel.
    destruct (MODEL st) eqn:Hst; try congruence.
    split_and!; try done.
    intros Hresp.
    destruct (event_input event) as [| | | | | |d] eqn:Hin;
      try (rewrite handler_not_dict in Hresp
             by (rewrite Hin; discriminate); discriminate).
    destruct (handler_calls _ _ st Hin) as (k & _ & _ & Hret).
    destruct (Hret _ Hresp) as [(Hp & _) | (_ & m' & c' & images & _ & _ & _ & Himg & _)].
    + rewrite (reaches_generation_dict _ _ Hin), Hp in Hreach.
      destruct (py_min _ 4); discriminate.
    + symmetry in Himg. now apply images_response_not_error in Himg.
Qed.

(** ** The generation loop *)

(** C2 (as amended).  For a request with a truthy prompt, an integer
    [num_images] [n] (1 when the field is absent; a [bool] counts as 0 or 1),
    a seed that is absent or a number and a size Pillow accepts in the
    colours line 66 draws, [handler] returns [{"images": [...]}] with
    [max(0, min(n, 4))] entries; that is [min(n, 4)] whenever [n] is not
    negative. *)
Theorem handler_image_count event d n st :
  event_input event = VDict d ->
  truthy (field d "prompt" (VStr "")) = true ->
  as_int (field d "num_images" (VInt 1)) = Some n ->
  seed_usable (field d "seed" VNone) ->
  pillow_accepts (field d "width" (VInt 1024)) (field d "height" (VInt 1024)) ->
  exists images st',
    handler event st = (Returned (images_response images), st') /\
    images_response images !! "images" = Some (VList (VStr <$> images)) /\
    Z.of_nat (length (VStr <$> images)) = Z.max 0 (Z.min n 4) /\
    (0 <= n -> Z.of_nat (length (VStr <$> images)) = Z.min n 4).
Proof.
  intros Hd Hp Hn Hsd Hpil.
  destruct (handler_valid _ _ _ st Hd Hp Hn Hsd Hpil)
    as (images & st' & Hrun & Hlen & _).
  exists images, st'. rewrite length_fmap.
  split_and!; [done | apply lookup_singleton_eq | done | lia].
Qed.


(** C4.  Every call of [generate_image] gets as its prompt the full prompt
    of line 93: [char_block], a comma, a space and [prompt] when
    [char_block] is non-empty, and [prompt] itself when it is empty; for two
    strings [a] (non-empty) and [b] this is the string [a ++ ", " ++ b], and
    ["A"] with ["B"] gives ["A, B"].  A request that gets a response made
    one such call per image. *)
Theorem handler_full_prompt event d st :
  event_input event = VDict d ->
  exists new,
    gen_calls (snd (handler event st)) = gen_calls st ++ new /\
    Forall (fun c =>
              call_prompt c =
                full_prompt_of (field d "char_block" (VStr ""))
                  (field d "prompt" (VStr ""))) new /\
    (forall n,
       truthy (field d "prompt" (VStr "")) = true ->
       as_int (field d "num_images" (VInt 1)) = Some n ->
       seed_usable (field d "seed" VNone) ->
       pillow_accepts (field d "width" (VInt 1024)) (field d "height" (VInt 1024)) ->
       Z.of_nat (length new) = Z.max 0 (Z.min n 4)) /\
    (forall cb p,
       truthy cb = true ->
       full_prompt_of cb p = VStr (format_value cb +:+ ", " +:+ format_value p)) /\
    (forall cb p, truthy cb = false -> full_prompt_of cb p = p) /\
    (forall a b,
       a <> "" -> full_prompt_of (VStr a) (VStr b) = VStr (a +:+ ", " +:+ b)) /\
    full_prompt_of (VStr "A") (VStr "B") = VStr "A, B".
Proof.
  intros Hd.
  destruct (handler_calls _ _ st Hd) as (k & _ & Hcalls & _).
  eexists. split; [exact Hcalls|]. split_and!.
  - apply Forall_fmap, Forall_forall. intros i _. reflexivity.
  - intros n Hp Hn Hsd Hpil.
    destruct (handler_valid _ _ _ st Hd Hp Hn Hsd Hpil)
      as (images & st' & Hrun & _ & Hcalls').
    rewrite Hrun in Hcalls. simpl in Hcalls. rewrite Hcalls' in Hcalls.
    apply app_inv_head in Hcalls. rewrite <- Hcalls.
    rewrite length_fmap, length_seqZ. lia.
  - intros cb p Hcb. unfold full_prompt_of. now rewrite Hcb.
  - intros cb p Hcb. unfold full_prompt_of. now rewrite Hcb.
  - intros a b Ha. unfold full_prompt_of. simpl.
    rewrite bool_decide_eq_false_2 by exact Ha. reflexivity.
  - reflexivity.
Qed.

(** C8.  Every call of [generate_image] gets as its negative prompt the
    value read from the input ([""] when the field is absent), unchanged;
    a request that gets a response made one such call per image. *)
Theorem handler_negative_prompt event d st :
  event_input event = VDict d ->
  exists new,
    gen_calls (snd (handler event st)) = gen_calls st ++ new /\
    Forall (fun c =>
              call_negative_prompt c = field d "negative_prompt" (VStr "")) new /\
    (d !! "negative_prompt" = None ->
     Forall (fun c => call_negative_prompt c = VStr "") new) /\
    (forall n,
       truthy (field d "prompt" (VStr "")) = true ->
       as_int (field d "num_images" (VInt 1)) = Some n ->
       seed_usable (field d "seed" VNone) ->
       pillow_accepts (field d "width" (VInt 1024)) (field d "height" (VInt 1024)) ->
       Z.of_nat (length new) = Z.max 0 (Z.min n 4)).
Proof.
  intros Hd.
  destruct (handler_calls _ _ st Hd) as (k & _ & Hcalls & _).
  eexists. split; [exact Hcalls|]. split_and!.
  - apply Forall_fmap, Forall_forall. intros i _. reflexivity.
  - intros Hnone. apply Forall_fmap, Forall_forall. intros i _. simpl.
    unfold field. now rewrite Hnone.
  - intros n Hp Hn Hsd Hpil.
    destruct (handler_valid _ _ _ st Hd Hp Hn Hsd Hpil)
      as (images & st' & Hrun & _ & Hcalls').
    rewrite Hrun in Hcalls. simpl in Hcalls. rewrite Hcalls' in Hcalls.
    apply app_inv_head in Hcalls. rewrite <- Hcalls.
    rewrite length_fmap, length_seqZ. lia.
Qed.

(** ** The model handle *)

Lemma after_load_loaded st : MODEL st <> VNone -> after_load st = st.
Proof. unfold after_load. destruct (MODEL st); congruence. Qed.

Lemma after_load_unset st :
  MODEL st = VNone ->
  MODEL (after_load st) = VStr "loaded" /\
  load_count (after_load st) = S (load_count st).
Proof.
  intros Hst. unfold after_load, load_count. rewrite Hst. simpl.
  split; [reflexivity|].
  rewrite filter_app, length_app. simpl. lia.
Qed.

Lemma handler_load_count event st :
  load_count (snd (handler event st)) =
    load_count (if reaches_generation event then after_load st else st).
Proof.
  unfold load_count. now destruct (handler_model event st) as [_ ->].
Qed.

Lemma serve_cons_state event rest st :
  snd (serve (event :: rest) st) = snd (serve rest (snd (handler event st))).
Proof.
  simpl. destruct (handler event st) as [o st1]. simpl.
  destruct (serve rest st1) as [os st2]. reflexivity.
Qed.

Lemma serve_loaded events :
  forall st,
    MODEL st <> VNone ->
    MODEL (snd (serve events st)) = MODEL st /\
    load_count (snd (serve events st)) = load_count st.
Proof.
  induction events as [|event rest IH]; intros st Hst; [done|].
  rewrite serve_cons_state.
  destruct (handler_model event st) as [Hmodel _].
  pose proof (handler_load_count event st) as Hcount.
  rewrite (after_load_loaded _ Hst) in Hmodel, Hcount.
  assert (Hsame : MODEL (snd (handler event st)) = MODEL st)
    by (rewrite Hmodel; now destruct (reaches_generation event)).
  destruct (IH (snd (handler event st))) as [-> ->]; [congruence|].
  split; [exact Hsame|].
  rewrite Hcount. now destruct (reaches_generation event).
Qed.

Lemma serve_unset events :
  forall st,
    MODEL st = VNone ->
    MODEL (snd (serve events st)) =
      (if existsb reaches_generation events then VStr "loaded" else VNone) /\
    load_count (snd (serve events st)) =
      (load_count st + if existsb reaches_generation events then 1 else 0)%nat.
Proof.
  induction events as [|event rest IH]; intros st Hst.
  - simpl. split; [exact Hst | lia].
  - rewrite serve_cons_state.
    destruct (handler_model event st) as [Hmodel _].
    pose proof (handler_load_count event st) as Hcount.
    simpl existsb. destruct (reaches_generation event); simpl orb.
    + destruct (after_load_unset _ Hst) as [Hloaded Hone].
      rewrite Hloaded in Hmodel. rewrite Hone in Hcount.
      destruct (serve_loaded rest (snd (handler event st))) as [-> ->];
        [congruence|].
      split; [exact Hmodel | lia].
    + rewrite Hst in Hmodel.
      destruct (IH _ Hmodel) as [-> ->]. now rewrite Hcount.
Qed.

(** C5.  [MODEL] is unset in the initial state.  A request handled while it
    is unset sets it (to ["loaded"], running [load_model] once) exactly when
    the request gets past the prompt check; a request handled once it is set
    neither changes it nor runs [load_model].  So over any sequence of
    requests served from the initial state [load_model] runs once if some
    request gets past the prompt check and never otherwise, the request that
    runs it is the first such one, and [MODEL] is then ["loaded"] for good. *)
Theorem model_loaded_once :
  MODEL initial_state = VNone /\
  (forall event st,
     MODEL st = VNone ->
     (reaches_generation event = true ->
      MODEL (snd (handler event st)) = VStr "loaded" /\
      load_count (snd (handler event st)) = S (load_count st)) /\
     (reaches_generation event = false ->
      MODEL (snd (handler event st)) = VNone /\
      load_count (snd (handler event st)) = load_count st)) /\
  (forall event st,
     MODEL st <> VNone ->
     MODEL (snd (handler event st)) = MODEL st /\
     load_count (snd (handler event st)) = load_count st) /\
  (forall events,
     MODEL (snd (serve events initial_state)) =
       (if existsb reaches_generation events then VStr "loaded" else VNone) /\
     load_count (snd (serve events initial_state)) =
       (if existsb reaches_generation events then 1 else 0)%nat) /\
  (forall before event after,
     existsb reaches_generation before = false ->
     reaches_generation event = true ->
     MODEL (snd (serve before initial_state)) = VNone /\
     MODEL (snd (serve (before ++ [event]) initial_state)) = VStr "loaded" /\
     MODEL (snd (serve (before ++ event :: after) initial_state)) = VStr "loaded" /\
     load_count (snd (serve (before ++ event :: after) initial_state)) = 1%nat).
Proof.
  split_and!.
  - reflexivity.
  - intros event st Hst.
    destruct (handler_model event st) as [Hmodel _].
    pose proof (handler_load_count event st) as Hcount.
    destruct (after_load_unset _ Hst) as [Hloaded Hone].
    split; intros Hreach; rewrite Hreach in Hmodel, Hcount;
      split; congruence.
  - intros event st Hst.
    destruct (handler_model event st) as [Hmodel _].
    pose proof (handler_load_count event st) as Hcount.
    rewrite (after_load_loaded _ Hst) in Hmodel, Hcount.
    destruct (reaches_generation event); done.
  - intros events.
    destruct (serve_unset events initial_state eq_refl) as [-> ->]. done.
  - intros before event after Hbefore Hevent.
    destruct (serve_unset before initial_state eq_refl) as [-> _].
    destruct (serve_unset (before ++ [event]) initial_state eq_refl) as [-> _].
    destruct (serve_unset (before ++ event :: after) initial_state eq_refl)
      as [-> ->].
    rewrite !existsb_app, Hbefore. simpl. rewrite Hevent. done.
Qed.

End handler_facts.

(** ** The statements at concrete requests *)

Lemma reference_pillow_accepts a b :
  0 < a -> 0 < b ->
  pillow_accepts (H := reference_externals) (VInt a) (VInt b).
Proof.
  intros Ha Hb c. exists (a, b, c), [Byte.xff; Byte.xd8; Byte.xff; Byte.xd9].
  simpl. unfold reference_Image_new, reference_Image_save.
  replace (0 <=? a) with true by lia. replace (0 <=? b) with true by lia.
  replace (0 <? a) with true by lia. replace (0 <? b) with true by lia.
  split; reflexivity.
Qed.

(** A request with no prompt and [num_images = null] makes line 87 raise
    [TypeError] before the prompt check of line 89 is reached, whatever the
    external libraries and the process state are. *)
Lemma handler_null_count_raises :
  event_input null_count_event = VDict null_count_input /\
  null_count_input !! "prompt" = None /\
  (forall (E : Externals) st,
     handler null_count_event st = (Raised TypeError, st)) /\
  fst (handler (H := reference_externals) null_count_event initial_state) <>
    Returned ({[ "error" := VStr "prompt is required" ]} : gmap string value).
Proof.
  split_and!.
  - reflexivity.
  - reflexivity.
  - intros E st.
    rewrite (handler_dict null_count_event null_count_input st eq_refl).
    reflexivity.
  - rewrite (handler_dict null_count_event null_count_input _ eq_refl).
    discriminate.
Qed.

(** A request with the falsy prompt [0] and a string as [num_images] raises
    [TypeError] in the same way. *)
Lemma handler_text_count_raises :
  event_input text_count_event = VDict text_count_input /\
  text_count_input !! "prompt" = Some (VInt 0) /\
  truthy (VInt 0) = false /\
  (forall (E : Externals) st,
     handler text_count_event st = (Raised TypeError, st)) /\
  fst (handler (H := reference_externals) text_count_event initial_state) <>
    Returned error_response.
Proof.
  split_and!.
  - reflexivity.
  - reflexivity.
  - reflexivity.
  - intros E st.
    rewrite (handler_dict text_count_event text_count_input st eq_refl).
    reflexivity.
  - rewrite (handler_dict text_count_event text_count_input _ eq_refl).
    discriminate.
Qed.

(** A request with a prompt and [num_images = -1] gets the empty list of
    images: its length 0 is not [min(-1, 4) = -1]. *)
Lemma handler_negative_count_length :
  event_input negative_count_event = VDict negative_count_input /\
  truthy (field negative_count_input "prompt" (VStr "")) = true /\
  field negative_count_input "num_images" (VInt 1) = VInt (-1) /\
  (forall (E : Externals) st,
     handler negative_count_event st =
       (Returned ({[ "images" := VList [] ]} : gmap string value), after_load st)) /\
  Z.of_nat (length (@nil value)) <> Z.min (-1) 4.
Proof.
  split_and!.
  - reflexivity.
  - reflexivity.
  - reflexivity.
  - intros E st.
    apply (handler_empty_range negative_count_event negative_count_input (-1));
      [reflexivity | reflexivity | reflexivity | lia].
  - simpl. lia.
Qed.

(** The empty request, on a fresh process: the error mapping, state untouched. *)
Lemma handler_prompt_required_witness :
  handler (H := reference_externals) (∅ : gmap string value) initial_state =
    (Returned ({[ "error" := VStr "prompt is required" ]} : gmap string value),
     initial_state) /\
  ({[ "error" := VStr "prompt is required" ]} : gmap string value) !! "images" = None.
Proof.
  apply (handler_prompt_required (H := reference_externals) ∅ ∅ initial_state).
  - reflexivity.
  - left. reflexivity.
  - reflexivity.
Defined.

(** The prompt [None] gets the error mapping. *)
Lemma handler_prompt_falsy_witness :
  handler (H := reference_externals) null_prompt_event initial_state =
    (Returned error_response, initial_state).
Proof.
  apply (handler_prompt_falsy (H := reference_externals)
           null_prompt_event null_prompt_input VNone initial_state).
  - reflexivity.
  - reflexivity.
  - reflexivity.
  - reflexivity.
Defined.

(** The empty request has no ["input"] key and gets the error mapping. *)
Lemma handler_missing_input_witness :
  handler (H := reference_externals) (∅ : gmap string value) initial_state =
    (Returned error_response, initial_state).
Proof.
  apply (handler_missing_input (H := reference_externals) ∅ initial_state).
  reflexivity.
Defined.

(** A prompt with [num_images = 0]: an empty list of images, model loaded. *)
Lemma handler_nonpositive_count_witness :
  handler (H := reference_externals) zero_count_event initial_state =
    (Returned ({[ "images" := VList [] ]} : gmap string value),
     after_load initial_state).
Proof.
  apply (handler_nonpositive_count (H := reference_externals)
           zero_count_event zero_count_input 0 initial_state).
  - reflexivity.
  - reflexivity.
  - reflexivity.
  - lia.
Defined.

(** The empty request leaves a fresh process as it is; the sample request loads the model. *)
Lemma handler_error_path_state_witness :
  snd (handler (H := reference_externals) ∅ initial_state) = initial_state /\
  MODEL (snd (handler (H := reference_externals) sample_event initial_state)) =
    VStr "loaded".
Proof.
  split.
  - apply (handler_error_path_state (H := reference_externals) ∅ initial_state).
    reflexivity.
  - apply (handler_error_path_state (H := reference_externals)
             sample_event initial_state).
    vm_compute. discriminate.
Defined.

(** The sample request ([num_images = 2]) gets two images. *)
Lemma handler_image_count_witness :
  exists images st',
    handler (H := reference_externals) sample_event initial_state =
      (Returned (images_response images), st') /\
    Z.of_nat (length (VStr <$> images)) = 2.
Proof.
  destruct (handler_image_count (H := reference_externals)
              sample_event sample_input 2 initial_state)
    as (images & st' & Hrun & _ & Hlen & _).
  - reflexivity.
  - reflexivity.
  - reflexivity.
  - right. reflexivity.
  - apply (reference_pillow_accepts 64 64); lia.
  - exists images, st'. split; [exact Hrun | exact Hlen].
Defined.


(** Character block ["A"] and prompt ["B"]: three calls, each with ["A, B"]. *)
Lemma handler_full_prompt_witness :
  exists new,
    gen_calls (snd (handler (H := reference_externals) triple_event initial_state)) =
      gen_calls initial_state ++ new /\
    Forall (fun c => call_prompt c = VStr "A, B") new /\
    Z.of_nat (length new) = 3.
Proof.
  destruct (handler_full_prompt (H := reference_externals)
              triple_event triple_input initial_state)
    as (new & Hcalls & Hprompt & Hlen & _).
  - reflexivity.
  - exists new. split_and!; [exact Hcalls | exact Hprompt |].
    apply (Hlen 3).
    + reflexivity.
    + reflexivity.
    + right. reflexivity.
    + apply (reference_pillow_accepts 1024 1024); lia.
Defined.

(** Negative prompt ["blurry"]: three calls, each with it. *)
Lemma handler_negative_prompt_witness :
  exists new,
    gen_calls (snd (handler (H := reference_externals) triple_event initial_state)) =
      gen_calls initial_state ++ new /\
    Forall (fun c => call_negative_prompt c = VStr "blurry") new /\
    Z.of_nat (length new) = 3.
Proof.
  destruct (handler_negative_prompt (H := reference_externals)
              triple_event triple_input initial_state)
    as (new & Hcalls & Hneg & _ & Hlen).
  - reflexivity.
  - exists new. split_and!; [exact Hcalls | exact Hneg |].
    apply (Hlen 3).
    + reflexivity.
    + reflexivity.
    + right. reflexivity.
    + apply (reference_pillow_accepts 1024 1024); lia.
Defined.

(** An empty request and the sample request twice: one load, by the second request. *)
Lemma model_loaded_once_witness :
  MODEL (snd (serve (H := reference_externals)
                [∅; sample_event; sample_event] initial_state)) = VStr "loaded" /\
  load_count (snd (serve (H := reference_externals)
                     [∅; sample_event; sample_event] initial_state)) = 1%nat.
Proof.
  destruct (model_loaded_once (H := reference_externals))
    as (_ & _ & _ & _ & Hfirst).
  destruct (Hfirst [∅] sample_event [sample_event]) as (_ & _ & Hmodel & Hcount).
  - reflexivity.
  - reflexivity.
  - split; [exact Hmodel | exact Hcount].
Defined.

(** ** Further behaviour of the module *)

Section handler_coverage.
Context `{Externals}.

Lemma img_seed_for_unusable sd i :
  sd <> VNone -> is_number sd = false -> img_seed_for sd i = Raised TypeError.
Proof.
  intros Hsd Hnum. destruct sd; try discriminate; try reflexivity.
  congruence.
Qed.

(** A loop that returns has drawn three numbers per index, and one more
    per index when there is no seed. *)
Lemma generate_all_draws fp np w h sd indices :
  forall images st images' st',
    generate_all fp np w h sd indices images st = (Returned images', st') ->
    rand_pos st' = (rand_pos st + length indices * (3 + seed_draws sd))%nat.
Proof.
  induction indices as [|i rest IH]; intros images st images' st' Hrun.
  - injection Hrun as _ <-. simpl. lia.
  - rewrite generate_all_cons in Hrun.
    destruct (img_seed_for sd i) as [v|e] eqn:Hseed; [|discriminate].
    apply img_seed_for_draws in Hseed.
    rewrite generate_image_exact in Hrun.
    destruct (Image_new "RGB" w h _) as [img|e]; [|discriminate].
    destruct (Image_save img "JPEG" 95) as [buffer|e]; [|discriminate].
    apply IH in Hrun. rewrite Hrun. simpl. lia.
Qed.

(** The first index of a range of at least one. *)
Lemma py_range_positive m k :
  as_int m = Some k -> 1 <= k ->
  py_range m = Returned (0 :: seqZ 1 (Z.pred k)).
Proof.
  intros Hm Hk. unfold py_range. rewrite Hm, seqZ_cons by lia. reflexivity.
Qed.

Lemma after_load_rand_pos st : rand_pos (after_load st) = rand_pos st.
Proof. unfold after_load. destruct st as [[] ? ? ?]; reflexivity. Qed.

Lemma images_response_length images images' :
  images_response images = images_response images' ->
  length images = length images'.
Proof.
  intros Heq. apply (f_equal (fun m => m !! "images")) in Heq.
  unfold images_response in Heq. rewrite !lookup_singleton_eq in Heq.
  injection Heq as Heq. apply (f_equal length) in Heq.
  now rewrite !length_fmap in Heq.
Qed.

(** *** Requests that raise *)

(** X1.  When the request holds an ["input"] value that is not a mapping
    ([null], a number, a string, a list), the first [.get] of line 81 raises
    [AttributeError]: nothing is returned and the process state is the one
    the call started in. *)
Theorem handler_input_not_mapping event v st :
  event !! "input" = Some v ->
  (forall d, v <> VDict d) ->
  handler event st = (Raised AttributeError, st).
Proof.
  intros Hin Hv. apply handler_not_dict.
  unfold event_input. rewrite Hin. exact Hv.
Qed.

(** X2.  When [num_images] is present and not a number ([null], a string, a
    list, a mapping; an [int], a [bool] and a [float] are numbers), [min] on
    line 87 raises [TypeError] whatever the prompt is, truthy or not; the
    model is not loaded and the process state is the one the call started
    in. *)
Theorem handler_count_not_number event d v st :
  event_input event = VDict d ->
  d !! "num_images" = Some v ->
  is_number v = false ->
  handler event st = (Raised TypeError, st).
Proof.
  intros Hd Hv Hint. rewrite (handler_dict _ _ _ Hd).
  unfold field. rewrite Hv. simpl.
  now rewrite (py_min_not_number _ Hint).
Qed.

Lemma handler_seed_raises event d n st :
  event_input event = VDict d ->
  truthy (field d "prompt" (VStr "")) = true ->
  as_int (field d "num_images" (VInt 1)) = Some n ->
  1 <= n ->
  field d "seed" VNone <> VNone ->
  is_number (field d "seed" VNone) = false ->
  handler event st = (Raised TypeError, after_load st).
Proof.
  intros Hd Hp Hn Hle Hsd Hnum. rewrite (handler_dict _ _ _ Hd).
  destruct (py_min_number _ _ Hn) as (m & -> & Hm).
  rewrite respond_prompt by exact Hp. simpl.
  rewrite (py_range_positive _ _ Hm) by lia.
  rewrite generate_all_cons, (img_seed_for_unusable _ _ Hsd Hnum).
  reflexivity.
Qed.

(** A [float] image count that [min] keeps (it is not above 4) is no count
    for [range]: with a truthy prompt, line 101 raises [TypeError] after the
    model load. *)
Lemma handler_float_range_raises event d f st :
  event_input event = VDict d ->
  truthy (field d "prompt" (VStr "")) = true ->
  field d "num_images" (VInt 1) = VFloat f ->
  Z_lt_float 4 f = false ->
  handler event st = (Raised TypeError, after_load st).
Proof.
  intros Hd Hp Hn Hlt. rewrite (handler_dict _ _ _ Hd), Hn.
  unfold py_min, py_lt_int. rewrite Hlt.
  rewrite respond_prompt by exact Hp. reflexivity.
Qed.

(** X6.  With a truthy prompt and at least one image asked for, a seed that
    is neither [null] nor a number (a string, a list, a mapping) makes line
    102 raise [TypeError] in the first iteration: by then the model has been
    loaded, but no call of [generate_image] was made and nothing was drawn. *)
Theorem handler_seed_not_number event d n st :
  event_input event = VDict d ->
  truthy (field d "prompt" (VStr "")) = true ->
  as_int (field d "num_images" (VInt 1)) = Some n ->
  1 <= n ->
  field d "seed" VNone <> VNone ->
  is_number (field d "seed" VNone) = false ->
  handler event st = (Raised TypeError, after_load st).
Proof.
  intros Hd Hp Hn Hle Hsd Hnum.
  exact (handler_seed_raises _ _ _ _ Hd Hp Hn Hle Hsd Hnum).
Qed.


(** X12.  A [float] image count above 4 is replaced by the integer 4 on
    line 87, so the request runs exactly as with [num_images = 4]; a [float]
    count that is not above 4 (2.0, 0.0, a negative one, NaN) is kept, and
    with a truthy prompt [range] on line 101 then raises [TypeError] after
    the model load. *)
Theorem handler_float_count event d f st :
  event_input event = VDict d ->
  d !! "num_images" = Some (VFloat f) ->
  (Z_lt_float 4 f = true ->
   handler event st =
     handler {[ "input" := VDict (<[ "num_images" := VInt 4 ]> d) ]} st) /\
  (Z_lt_float 4 f = false ->
   truthy (field d "prompt" (VStr "")) = true ->
   handler event st = (Raised TypeError, after_load st)).
Proof.
  intros Hd Hf.
  assert (Hn : field d "num_images" (VInt 1) = VFloat f)
    by (unfold field; now rewrite Hf).
  split.
  - intros Hlt.
    rewrite (handler_dict _ _ _ Hd).
    rewrite (handler_dict _ (<[ "num_images" := VInt 4 ]> d) st)
      by (unfold event_input; now rewrite lookup_singleton_eq).
    unfold field at 1 8. rewrite Hf, lookup_insert_eq. simpl.
    unfold py_min, py_lt_int. rewrite Hlt. simpl.
    unfold field. now rewrite !lookup_insert_ne by done.
  - intros Hlt Hp. exact (handler_float_range_raises _ _ _ _ Hd Hp Hn Hlt).
Qed.

(** *** Requests that return *)

(** X3.  Whatever the request and the state, one call of [handler] makes at
    most four calls of [generate_image], added after the ones made before;
    and when it returns a list of images, the list has one image per call
    made. *)
Theorem handler_at_most_four_calls event st :
  exists new,
    gen_calls (snd (handler event st)) = gen_calls st ++ new /\
    (length new <= 4)%nat /\
    (forall images,
       fst (handler event st) = Returned (images_response images) ->
       length images = length new).
Proof.
  destruct (event_input event) as [| | | | | |d] eqn:Hin;
    try (exists []; rewrite handler_not_dict by (rewrite Hin; discriminate);
         simpl; rewrite app_nil_r; split_and!; [done | lia | done]).
  destruct (handler_calls _ _ st Hin) as (k & Hk & Hcalls & Hret).
  eexists. split; [exact Hcalls|].
  rewrite length_fmap, length_seqZ, Nat2Z.id. split; [exact Hk|].
  intros images Hresp.
  destruct (Hret _ Hresp) as [(_ & Herr & _) | (_ & m & c & images' & _ & _ & _ & Himg & Hlen)].
  - now apply images_response_not_error in Herr.
  - apply images_response_length in Himg. congruence.
Qed.

(** X4.  A response [handler] returns is one of two mappings with a single
    key: [{"error": "prompt is required"}], or [{"images": [...]}] holding a
    list of at most four strings.  It never has both keys. *)
Theorem handler_response_shape event st resp :
  fst (handler event st) = Returned resp ->
  (resp = {[ "error" := VStr "prompt is required" ]} \/
   exists images : list string,
     resp = {[ "images" := VList (VStr <$> images) ]} /\
     (length images <= 4)%nat) /\
  (resp !! "error" = None \/ resp !! "images" = None).
Proof.
  intros Hresp.
  destruct (event_input event) as [| | | | | |d] eqn:Hin;
    try (rewrite handler_not_dict in Hresp
           by (rewrite Hin; discriminate); discriminate).
  destruct (handler_calls _ _ st Hin) as (k & Hk & _ & Hret).
  destruct (Hret _ Hresp) as [(_ & -> & _) | (_ & m & c & images & _ & _ & _ & -> & Hlen)].
  - split; [left; reflexivity | right; reflexivity].
  - split; [right | left; reflexivity].
    exists images. split; [reflexivity | lia].
Qed.

(** X5.  [handler] returns the error response exactly when the input is a
    mapping (or missing), its [num_images] is absent or a number ([int],
    [bool] or [float]), and its [prompt] is absent or falsy. *)
Theorem handler_error_iff event st :
  fst (handler event st) = Returned error_response <->
  exists d,
    event_input event = VDict d /\
    is_number (field d "num_images" (VInt 1)) = true /\
    truthy (field d "prompt" (VStr "")) = false.
Proof.
  split.
  - intros Hresp.
    destruct (event_input event) as [| | | | | |d] eqn:Hin;
      try (rewrite handler_not_dict in Hresp
             by (rewrite Hin; discriminate); discriminate).
    exists d. split; [reflexivity|].
    destruct (handler_calls _ _ st Hin) as (k & _ & _ & Hret).
    destruct (Hret _ Hresp) as [(Hp & _) | (_ & m & c & images & _ & _ & _ & Himg & _)].
    2:{ symmetry in Himg. now apply images_response_not_error in Himg. }
    split; [|exact Hp].
    rewrite (handler_dict _ _ _ Hin) in Hresp.
    destruct (is_number (field d "num_images" (VInt 1))) eqn:Hn; [done|].
    rewrite (py_min_not_number _ Hn) in Hresp. discriminate.
  - intros (d & Hd & Hn & Hp).
    rewrite (handler_dict _ _ _ Hd).
    destruct (py_min_returns _ Hn) as (m & ->).
    now rewrite respond_no_prompt by exact Hp.
Qed.

(** X8.  Every call of [generate_image] gets the width and the height as
    they are read from the input: 1024 for an absent field, and the stored
    value for a present one, [null] included (the default replaces a missing
    key only). *)
Theorem handler_size_passed event d st :
  event_input event = VDict d ->
  exists new,
    gen_calls (snd (handler event st)) = gen_calls st ++ new /\
    Forall (fun c =>
              (d !! "width" = None -> call_width c = VInt 1024) /\
              (forall v, d !! "width" = Some v -> call_width c = v) /\
              (d !! "height" = None -> call_height c = VInt 1024) /\
              (forall v, d !! "height" = Some v -> call_height c = v)) new /\
    (forall n,
       truthy (field d "prompt" (VStr "")) = true ->
       as_int (field d "num_images" (VInt 1)) = Some n ->
       seed_usable (field d "seed" VNone) ->
       pillow_accepts (field d "width" (VInt 1024)) (field d "height" (VInt 1024)) ->
       Z.of_nat (length new) = Z.max 0 (Z.min n 4)).
Proof.
  intros Hd.
  destruct (handler_calls _ _ st Hd) as (k & _ & Hcalls & _).
  eexists. split; [exact Hcalls|]. split.
  - apply Forall_fmap, Forall_forall. intros i _. simpl. unfold field.
    split_and!.
    + now intros ->.
    + now intros v ->.
    + now intros ->.
    + now intros v ->.
  - intros n Hp Hn Hsd Hpil.
    destruct (handler_valid _ _ _ st Hd Hp Hn Hsd Hpil)
      as (images & st' & Hrun & _ & Hcalls').
    rewrite Hrun in Hcalls. simpl in Hcalls. rewrite Hcalls' in Hcalls.
    apply app_inv_head in Hcalls. rewrite <- Hcalls.
    rewrite length_fmap, length_seqZ. lia.
Qed.

(** *** Randomness *)

(** X9.  The placeholder generator uses neither prompt nor the value of a
    seed it is given: two calls from the same state with the same size and
    with any prompts and any two seeds other than [None] give the same
    outcome (the same image or the same exception) and move the random
    stream by the same three draws, without touching [MODEL] or the output. *)
Theorem generate_image_ignores_seed p1 n1 p2 n2 w h s1 s2 st :
  s1 <> VNone ->
  s2 <> VNone ->
  fst (generate_image p1 n1 w h s1 st) = fst (generate_image p2 n2 w h s2 st) /\
  rand_pos (snd (generate_image p1 n1 w h s1 st)) = (rand_pos st + 3)%nat /\
  rand_pos (snd (generate_image p2 n2 w h s2 st)) = (rand_pos st + 3)%nat /\
  MODEL (snd (generate_image p1 n1 w h s1 st)) = MODEL st /\
  stdout (snd (generate_image p1 n1 w h s1 st)) = stdout st.
Proof.
  intros Hs1 Hs2. rewrite !generate_image_exact. simpl.
  assert (H1 : seed_draws s1 = 0%nat) by (destruct s1; try reflexivity; congruence).
  assert (H2 : seed_draws s2 = 0%nat) by (destruct s2; try reflexivity; congruence).
  rewrite H1, H2, !Nat.add_0_r. done.
Qed.

(** X10.  A request that gets a list of images has drawn three random
    numbers per image when a seed was supplied and four per image when none
    was (one more for the seed the generator picks itself); a request that
    gets the error response has drawn none. *)
Theorem handler_random_draws event d st :
  event_input event = VDict d ->
  (forall images,
     fst (handler event st) = Returned (images_response images) ->
     rand_pos (snd (handler event st)) =
       (rand_pos st +
        length images * (3 + seed_draws (field d "seed" VNone)))%nat) /\
  (fst (handler event st) = Returned error_response ->
   rand_pos (snd (handler event st)) = rand_pos st).
Proof.
  intros Hd. rewrite (handler_dict _ _ _ Hd).
  destruct (py_min _ 4) as [m|e]; [|split; [intros ?|]; discriminate].
  destruct (truthy (field d "prompt" (VStr ""))) eqn:Hp.
  2:{ rewrite respond_no_prompt by exact Hp. split; [|done].
      intros images Himg. simpl in Himg.
      assert (Heq : images_response images = error_response) by congruence.
      now apply images_response_not_error in Heq. }
  rewrite respond_prompt by exact Hp. simpl.
  destruct (py_range m) as [indices|e]; [|split; [intros ?|]; discriminate].
  match goal with
  | |- context [generate_all ?fp ?np ?w ?h ?sd ?ix ?im ?s] =>
      pose proof (generate_all_draws fp np w h sd ix im s) as Hdraws;
      destruct (generate_all_run fp np w h sd ix im s)
        as (k & _ & _ & _ & _ & Hret);
      destruct (generate_all fp np w h sd ix im s) as [[images0|e] st']
  end; simpl in *; [|split; [intros ?|]; discriminate].
  split.
  - intros images Himg.
    assert (Heq : images_response images0 = images_response images) by congruence.
    apply images_response_length in Heq.
    rewrite (Hdraws _ _ eq_refl), after_load_rand_pos.
    destruct (Hret _ eq_refl) as [_ Hlen]. simpl in Hlen. congruence.
  - intros Himg.
    assert (Heq : images_response images0 = error_response) by congruence.
    now apply images_response_not_error in Heq.
Qed.

(** *** The images of a response *)

(** A loop that returns has appended, for the [j]-th index, the encoding of
    the image created with the colour drawn at that point of the stream. *)
Lemma generate_all_images fp np w h sd indices :
  forall images st images' st',
    generate_all fp np w h sd indices images st = (Returned images', st') ->
    exists tail,
      images' = images ++ tail /\
      length tail = length indices /\
      forall j k,
        (j < length indices)%nat ->
        k = (rand_pos st + j * (3 + seed_draws sd) + seed_draws sd)%nat ->
        exists img buffer,
          Image_new "RGB" w h (colour_at k) = Returned img /\
          Image_save img "JPEG" 95 = Returned buffer /\
          tail !! j = Some (b64encode buffer).
Proof.
  induction indices as [|i rest IH]; intros images st images' st' Hrun.
  - injection Hrun as <- _. exists []. rewrite app_nil_r.
    split_and!; [done | done |]. simpl. intros j k Hj. lia.
  - rewrite generate_all_cons in Hrun.
    destruct (img_seed_for sd i) as [v|e] eqn:Hseed; [|discriminate].
    apply img_seed_for_draws in Hseed.
    rewrite generate_image_exact, Hseed in Hrun.
    fold (colour_at (rand_pos st + seed_draws sd)) in Hrun.
    destruct (Image_new "RGB" w h (colour_at (rand_pos st + seed_draws sd)))
      as [img|e] eqn:Hnew; [|discriminate].
    destruct (Image_save img "JPEG" 95) as [buffer|e] eqn:Hsave; [|discriminate].
    apply IH in Hrun as (tail & -> & Hlen & Htail).
    exists (b64encode buffer :: tail). rewrite <- app_assoc.
    split_and!; [done | simpl; lia |].
    intros j k Hj ->. destruct j as [|j].
    + exists img, buffer. simpl. rewrite Nat.add_0_r. done.
    + simpl in Hj. destruct (Htail j _ ltac:(lia) eq_refl)
        as (img' & buffer' & Hnew' & Hsave' & Hj').
      exists img', buffer'. split_and!; [|done|done].
      rewrite <- Hnew'. f_equal. f_equal. simpl. lia.
Qed.

(** X11.  The images of a response come in generation order and depend on
    the size and the random stream only: the [j]-th string is the base64
    text of the JPEG (quality 95) of the RGB image of the requested width and
    height, in the colour drawn for the [j]-th image. *)
Theorem handler_images_in_order event d images st :
  event_input event = VDict d ->
  fst (handler event st) = Returned (images_response images) ->
  forall j : nat,
    (j < length images)%nat ->
    exists img buffer,
      Image_new "RGB" (field d "width" (VInt 1024)) (field d "height" (VInt 1024))
        (colour_at (rand_pos st +
                    j * (3 + seed_draws (field d "seed" VNone)) +
                    seed_draws (field d "seed" VNone))) = Returned img /\
      Image_save img "JPEG" 95 = Returned buffer /\
      images !! j = Some (b64encode buffer) /\
      images_response images !! "images" =
        Some (VList (VStr <$> images)).
Proof.
  intros Hd. rewrite (handler_dict _ _ _ Hd).
  destruct (py_min _ 4) as [m|e]; [|discriminate].
  destruct (truthy (field d "prompt" (VStr ""))) eqn:Hp.
  2:{ rewrite respond_no_prompt by exact Hp. simpl. intros Himg.
      assert (Heq : images_response images = error_response) by congruence.
      now apply images_response_not_error in Heq. }
  rewrite respond_prompt by exact Hp. simpl.
  destruct (py_range m) as [indices|e]; [|discriminate].
  match goal with
  | |- context [generate_all ?fp ?np ?w ?h ?sd ?ix ?im ?s] =>
      pose proof (generate_all_images fp np w h sd ix im s) as Himages;
      destruct (generate_all fp np w h sd ix im s) as [[images0|e] st']
  end; simpl in *; [|discriminate].
  intros Himg j Hj.
  destruct (Himages _ _ eq_refl) as (tail & -> & Hlen & Htail).
  simpl in Himg.
  assert (Heq : images_response tail = images_response images) by congruence.
  assert (Hsame : VStr <$> tail = VStr <$> images).
  { apply (f_equal (fun r => r !! "images")) in Heq.
    unfold images_response in Heq. rewrite !lookup_singleton_eq in Heq.
    congruence. }
  assert (Hinj : Inj (=) (=) VStr) by (intros ? ?; congruence).
  apply (inj (fmap VStr)) in Hsame. subst tail.
  destruct (Htail j _ ltac:(lia) eq_refl) as (img & buffer & Hnew & Hsave & Hlook).
  rewrite after_load_rand_pos in Hnew.
  exists img, buffer. split_and!; done.
Qed.

End handler_coverage.

(** ** The further statements at concrete requests *)

(** [{"input": null}] raises [AttributeError] on a fresh process. *)
Lemma handler_input_not_mapping_witness :
  handler (H := reference_externals) null_input_event initial_state =
    (Raised AttributeError, initial_state).
Proof.
  apply (handler_input_not_mapping (H := reference_externals)
           null_input_event VNone initial_state).
  - reflexivity.
  - discriminate.
Defined.

(** [num_images = null] raises [TypeError] on a fresh process. *)
Lemma handler_count_not_number_witness :
  handler (H := reference_externals) null_count_event initial_state =
    (Raised TypeError, initial_state).
Proof.
  apply (handler_count_not_number (H := reference_externals)
           null_count_event null_count_input VNone initial_state).
  - reflexivity.
  - reflexivity.
  - reflexivity.
Defined.

(** The seed ["abc"] raises [TypeError] after the model load. *)
Lemma handler_seed_not_number_witness :
  handler (H := reference_externals) text_seed_event initial_state =
    (Raised TypeError, after_load initial_state).
Proof.
  apply (handler_seed_not_number (H := reference_externals)
           text_seed_event text_seed_input 1 initial_state).
  - reflexivity.
  - reflexivity.
  - reflexivity.
  - lia.
  - discriminate.
  - reflexivity.
Defined.


(** The sample request gets a mapping with the single key ["images"]. *)
Lemma handler_response_shape_witness :
  (images_response ["/9j/2Q=="; "/9j/2Q=="] =
     {[ "error" := VStr "prompt is required" ]} \/
   exists images : list string,
     images_response ["/9j/2Q=="; "/9j/2Q=="] =
       {[ "images" := VList (VStr <$> images) ]} /\
     (length images <= 4)%nat) /\
  (images_response ["/9j/2Q=="; "/9j/2Q=="] !! "error" = None \/
   images_response ["/9j/2Q=="; "/9j/2Q=="] !! "images" = None).
Proof.
  apply (handler_response_shape (H := reference_externals)
           sample_event initial_state).
  vm_compute. reflexivity.
Defined.

(** The empty request gets the error response. *)
Lemma handler_error_iff_witness :
  fst (handler (H := reference_externals) (∅ : gmap string value) initial_state) =
    Returned error_response.
Proof.
  apply (handler_error_iff (H := reference_externals) ∅ initial_state).
  exists ∅. split_and!.
  - reflexivity.
  - reflexivity.
  - reflexivity.
Defined.

(** No width and [height = null]: the calls get 1024 and [None]. *)
Lemma handler_size_passed_witness :
  exists new,
    gen_calls (snd (handler (H := reference_externals) many_event initial_state)) =
      gen_calls initial_state ++ new /\
    Forall (fun c => call_width c = VInt 1024 /\ call_height c = VNone) new.
Proof.
  destruct (handler_size_passed (H := reference_externals)
              many_event many_input initial_state)
    as (new & Hcalls & Hsize & _).
  - reflexivity.
  - exists new. split; [exact Hcalls|].
    eapply Forall_impl; [exact Hsize|].
    intros c (Hw & _ & _ & Hh). split.
    + apply Hw. reflexivity.
    + apply Hh. reflexivity.
Defined.

(** Seeds 1 and 2 and different prompts give the same outcome. *)
Lemma generate_image_ignores_seed_witness :
  fst (generate_image (H := reference_externals) (VStr "cat") (VStr "")
         (VInt 64) (VInt 64) (VInt 1) initial_state) =
  fst (generate_image (H := reference_externals) (VStr "dog") (VStr "blurry")
         (VInt 64) (VInt 64) (VInt 2) initial_state).
Proof.
  apply (generate_image_ignores_seed (H := reference_externals)
           (VStr "cat") (VStr "") (VStr "dog") (VStr "blurry")
           (VInt 64) (VInt 64) (VInt 1) (VInt 2) initial_state).
  - discriminate.
  - discriminate.
Defined.

(** The sample request (two images, seed 7) draws six numbers. *)
Lemma handler_random_draws_witness :
  rand_pos (snd (handler (H := reference_externals) sample_event initial_state)) =
    6%nat.
Proof.
  destruct (handler_random_draws (H := reference_externals)
              sample_event sample_input initial_state)
    as [Hdraws _].
  - reflexivity.
  - apply (Hdraws ["/9j/2Q=="; "/9j/2Q=="]). vm_compute. reflexivity.
Defined.

(** The second image of the sample request is the encoding of a 64x64 image
    in the colour drawn at position 3 of the stream. *)
Lemma handler_images_in_order_witness :
  exists img buffer,
    Image_new (Externals := reference_externals) "RGB" (VInt 64) (VInt 64)
      (colour_at (H := reference_externals) 3) = Returned img /\
    Image_save img "JPEG" 95 = Returned buffer /\
    ["/9j/2Q=="; "/9j/2Q=="] !! 1%nat =
      Some (b64encode (Externals := reference_externals) buffer).
Proof.
  destruct (handler_images_in_order (H := reference_externals)
              sample_event sample_input ["/9j/2Q=="; "/9j/2Q=="] initial_state)
    with (j := 1%nat)
    as (img & buffer & Hnew & Hsave & Hlook & _).
  - reflexivity.
  - vm_compute. reflexivity.
  - simpl. lia.
  - exists img, buffer. split_and!; [exact Hnew | exact Hsave | exact Hlook].
Defined.

(** ** Requests the amended statements leave out *)

(** A request with a prompt and the text seed ["abc"] gets past the prompt
    check, loads the model and then raises [TypeError] on line 102: the call
    that changes [MODEL] is not a successful one. *)
Lemma handler_loads_then_raises :
  event_input text_seed_event = VDict text_seed_input /\
  truthy (field text_seed_input "prompt" (VStr "")) = true /\
  (forall (E : Externals) st,
     handler text_seed_event st = (Raised TypeError, after_load st)) /\
  MODEL initial_state = VNone /\
  MODEL (snd (handler (H := reference_externals) text_seed_event initial_state)) =
    VStr "loaded".
Proof.
  assert (Hrun : forall (E : Externals) st,
             handler text_seed_event st = (Raised TypeError, after_load st)).
  { intros E st.
    apply (handler_seed_raises text_seed_event text_seed_input 1);
      [reflexivity | reflexivity | reflexivity | lia | discriminate | reflexivity]. }
  split_and!.
  - reflexivity.
  - reflexivity.
  - exact Hrun.
  - reflexivity.
  - rewrite Hrun. reflexivity.
Qed.

(** A request with a prompt and [num_images = 0.0], a count that is at most
    0, loads the model and then raises [TypeError] on line 101 instead of
    returning [{"images": []}]. *)
Lemma handler_float_zero_count_raises :
  event_input float_count_event = VDict float_count_input /\
  truthy (field float_count_input "prompt" (VStr "")) = true /\
  field float_count_input "num_images" (VInt 1) = VFloat 0%float /\
  PrimFloat.leb 0%float 0%float = true /\
  (forall (E : Externals) st,
     handler float_count_event st = (Raised TypeError, after_load st)) /\
  fst (handler (H := reference_externals) float_count_event initial_state) <>
    Returned ({[ "images" := VList [] ]} : gmap string value).
Proof.
  assert (Hrun : forall (E : Externals) st,
             handler float_count_event st = (Raised TypeError, after_load st)).
  { intros E st.
    apply (handler_float_range_raises float_count_event float_count_input 0%float);
      reflexivity. }
  split_and!.
  - reflexivity.
  - reflexivity.
  - reflexivity.
  - reflexivity.
  - exact Hrun.
  - rewrite Hrun. discriminate.
Qed.

(** The count [0.0] raises after the model load. *)
Lemma handler_float_count_witness :
  handler (H := reference_externals) float_count_event initial_state =
    (Raised TypeError, after_load initial_state).
Proof.
  apply (handler_float_count (H := reference_externals)
           float_count_event float_count_input 0%float initial_state).
  - reflexivity.
  - reflexivity.
  - reflexivity.
  - reflexivity.
Defined.
